(** * ST7789V LCD driver (tuya_lcd.c): bus framing, window protocol, flush

    A shallow embedding of [driver/tuya_lcd.c].  The driver never reads
    anything back from the hardware: it only calls the platform primitives
    declared in [tuya_gpio.h] and [tuya_spi.h] and the LVGL notification
    [lv_disp_flush_ready].  Those primitives are modelled by a recording
    platform: every call is appended to a log, the level last written to
    each pin is kept in a finite map, and the status that the SPI transport
    returns is scripted by the platform state, so that a failing transport
    can be expressed.

    Integers are [Z] with the C conversions written out: [uint8_t],
    [uint16_t] and [uint32_t] arguments are reduced modulo 2^8, 2^16 and
    2^32 where the C code converts.  [int] is taken to be 32 bits wide, as
    on the target; the one [int] product of the driver, in [lcd_flush], is
    stored in a [uint32_t], and [size_in_int] says when it does not
    overflow. *)

From Stdlib Require Import ZArith List Lia.
From stdpp Require Import base gmap list.
Import ListNotations.
Local Open Scope Z_scope.

(** ** Fixed-width conversions *)

Definition to_uint8 (v : Z) : Z := v mod 2 ^ 8.
Definition to_uint16 (v : Z) : Z := v mod 2 ^ 16.
Definition to_uint32 (v : Z) : Z := v mod 2 ^ 32.

Definition is_int16 (v : Z) : Prop := - 2 ^ 15 <= v < 2 ^ 15.
Definition is_uint16 (v : Z) : Prop := 0 <= v < 2 ^ 16.
Definition is_uint8 (v : Z) : Prop := 0 <= v < 2 ^ 8.

(** ** Constants of tuya_gpio.h, tuya_lcd.h and tuya_lcd.c *)

Definition P8 : Z := 8.
Definition P9 : Z := 9.
Definition P10 : Z := 10.
Definition P11 : Z := 11.

Inductive tuya_gpio_mode_t :=
| TUYA_GPIO_INPUT
| TUYA_GPIO_OUTPUT
| TUYA_GPIO_INPUT_PULLUP
| TUYA_GPIO_INPUT_PULLDOWN.

Definition LCD_WIDTH : Z := 240.
Definition LCD_HEIGHT : Z := 320.

Definition LCD_CS_PIN : Z := P8.
Definition LCD_DC_PIN : Z := P9.
Definition LCD_RST_PIN : Z := P10.
Definition LCD_BL_PIN : Z := P11.

Definition LCD_CMD : Z := 0.
Definition LCD_DATA : Z := 1.

Definition ST7789_SWRESET : Z := 0x01.
Definition ST7789_SLPOUT : Z := 0x11.
Definition ST7789_NORON : Z := 0x13.
Definition ST7789_MADCTL : Z := 0x36.
Definition ST7789_COLMOD : Z := 0x3A.
Definition ST7789_PORCTRL : Z := 0xB2.
Definition ST7789_GCTRL : Z := 0xB7.
Definition ST7789_VCOMS : Z := 0xBB.
Definition ST7789_LCMCTRL : Z := 0xC0.
Definition ST7789_VDVVRHEN : Z := 0xC2.
Definition ST7789_VRHS : Z := 0xC3.
Definition ST7789_VDVS : Z := 0xC4.
Definition ST7789_FRCTRL2 : Z := 0xC6.
Definition ST7789_PWCTRL1 : Z := 0xD0.
Definition ST7789_PVGAMCTRL : Z := 0xE0.
Definition ST7789_NVGAMCTRL : Z := 0xE1.
Definition ST7789_DISPON : Z := 0x29.
Definition ST7789_CASET : Z := 0x2A.
Definition ST7789_RASET : Z := 0x2B.
Definition ST7789_RAMWR : Z := 0x2C.

(** ** The recording platform *)

(** One entry of the log per call that leaves the driver.  [SpiWrite buf len]
    is the call [tuya_spi_write(buf, len)]: [buf] is the byte object the
    pointer designates, [len] the 16-bit length argument.  [Spin n] is one
    run of the busy loop of [lcd_delay_ms] with [n] iterations. *)
Inductive event :=
| GpioConfig (pin : Z) (mode : tuya_gpio_mode_t)
| GpioWrite (pin value : Z)
| SpiInit
| SpiWrite (buf : list Z) (len : Z)
| Spin (iterations : Z)
| FlushReady (drv : Z).

Record platform := Platform {
  levels : gmap Z Z;          (* level last written to each pin *)
  bus : list event;           (* calls seen so far, oldest first *)
  spi_status : list Z         (* statuses of the coming tuya_spi_write calls *)
}.

(** State passing over the platform; the value comes first. *)
Definition M (A : Type) : Type := platform -> A * platform.

Definition ret {A} (a : A) : M A := fun p => (a, p).
Definition bind {A B} (c : M A) (k : A -> M B) : M B :=
  fun p => let (a, p') := c p in k a p'.

Declare Scope drv_scope.
Delimit Scope drv_scope with drv.
Notation "c ;; k" := (bind c (fun _ => k))
  (at level 100, k at level 200, right associativity) : drv_scope.
Local Open Scope drv_scope.

Definition exec {A} (c : M A) (p : platform) : platform := snd (c p).
Definition result {A} (c : M A) (p : platform) : A := fst (c p).

(** What the platform does with one call: it logs it; a pin write also
    latches the level, an SPI write also consumes one scripted status. *)
Definition react (e : event) (p : platform) : platform :=
  match e with
  | GpioWrite pin value =>
      Platform (<[pin := value]> (levels p)) (bus p ++ [e]) (spi_status p)
  | SpiWrite _ _ =>
      Platform (levels p) (bus p ++ [e]) (tl (spi_status p))
  | _ => Platform (levels p) (bus p ++ [e]) (spi_status p)
  end.

Definition replay (evs : list event) (p : platform) : platform :=
  fold_left (fun q e => react e q) evs p.

(** [int tuya_gpio_config(uint8_t pin, tuya_gpio_mode_t mode)]; the GPIO
    calls and [tuya_spi_init] report 0. *)
Definition tuya_gpio_config (pin : Z) (mode : tuya_gpio_mode_t) : M Z :=
  fun p => (0, react (GpioConfig (to_uint8 pin) mode) p).

(** [int tuya_gpio_write(uint8_t pin, uint8_t value)] *)
Definition tuya_gpio_write (pin value : Z) : M Z :=
  fun p => (0, react (GpioWrite (to_uint8 pin) (to_uint8 value)) p).

(** [int tuya_spi_init(void)] *)
Definition tuya_spi_init : M Z :=
  fun p => (0, react SpiInit p).

(** [int tuya_spi_write(const uint8_t *data, uint16_t len)]: the status is
    the next scripted one, 0 (success) when the script is exhausted. *)
Definition tuya_spi_write (data : list Z) (len : Z) : M Z :=
  fun p => (hd 0 (spi_status p), react (SpiWrite data (to_uint16 len)) p).

(** [void lv_disp_flush_ready(lv_disp_drv_t *drv)] *)
Definition lv_disp_flush_ready (drv : Z) : M unit :=
  fun p => (tt, react (FlushReady drv) p).

(** ** Bus framer *)

Definition lcd_write_cmd (cmd : Z) : M unit :=
  tuya_gpio_write LCD_DC_PIN 0 ;;
  tuya_gpio_write LCD_CS_PIN 0 ;;
  tuya_spi_write [to_uint8 cmd] 1 ;;
  tuya_gpio_write LCD_CS_PIN 1 ;;
  ret tt.

Definition lcd_write_data (data : Z) : M unit :=
  tuya_gpio_write LCD_DC_PIN 1 ;;
  tuya_gpio_write LCD_CS_PIN 0 ;;
  tuya_spi_write [to_uint8 data] 1 ;;
  tuya_gpio_write LCD_CS_PIN 1 ;;
  ret tt.

Definition lcd_write_data_buf (buf : list Z) (len : Z) : M unit :=
  tuya_gpio_write LCD_DC_PIN 1 ;;
  tuya_gpio_write LCD_CS_PIN 0 ;;
  tuya_spi_write buf (to_uint16 len) ;;
  tuya_gpio_write LCD_CS_PIN 1 ;;
  ret tt.

(** ** Window protocol *)

Definition lcd_set_address_window (x0 y0 x1 y1 : Z) : M unit :=
  let x0 := to_uint16 x0 in
  let y0 := to_uint16 y0 in
  let x1 := to_uint16 x1 in
  let y1 := to_uint16 y1 in
  lcd_write_cmd ST7789_CASET ;;
  lcd_write_data (Z.shiftr x0 8) ;;
  lcd_write_data (Z.land x0 0xFF) ;;
  lcd_write_data (Z.shiftr x1 8) ;;
  lcd_write_data (Z.land x1 0xFF) ;;
  lcd_write_cmd ST7789_RASET ;;
  lcd_write_data (Z.shiftr y0 8) ;;
  lcd_write_data (Z.land y0 0xFF) ;;
  lcd_write_data (Z.shiftr y1 8) ;;
  lcd_write_data (Z.land y1 0xFF) ;;
  lcd_write_cmd ST7789_RAMWR.

(** ** Delay *)

(** [for (volatile uint32_t i = 0; i < ms * 1000; i++);] runs
    [ms * 1000] (in 32-bit unsigned arithmetic) empty iterations. *)
Definition lcd_delay_ms (ms : Z) : M unit :=
  fun p => (tt, react (Spin (to_uint32 (to_uint32 ms * 1000))) p).

(** ** Initialisation *)

Definition lcd_init : M unit :=
  tuya_gpio_config LCD_CS_PIN TUYA_GPIO_OUTPUT ;;
  tuya_gpio_config LCD_DC_PIN TUYA_GPIO_OUTPUT ;;
  tuya_gpio_config LCD_RST_PIN TUYA_GPIO_OUTPUT ;;
  tuya_gpio_config LCD_BL_PIN TUYA_GPIO_OUTPUT ;;
  tuya_spi_init ;;
  tuya_gpio_write LCD_RST_PIN 0 ;;
  lcd_delay_ms 10 ;;
  tuya_gpio_write LCD_RST_PIN 1 ;;
  lcd_delay_ms 120 ;;
  tuya_gpio_write LCD_BL_PIN 1 ;;
  lcd_write_cmd ST7789_SWRESET ;;
  lcd_delay_ms 150 ;;
  lcd_write_cmd ST7789_SLPOUT ;;
  lcd_delay_ms 10 ;;
  lcd_write_cmd ST7789_COLMOD ;;
  lcd_write_data 0x55 ;;
  lcd_write_cmd ST7789_MADCTL ;;
  lcd_write_data 0x00 ;;
  lcd_write_cmd ST7789_CASET ;;
  lcd_write_data 0x00 ;;
  lcd_write_data 0x00 ;;
  lcd_write_data 0x00 ;;
  lcd_write_data 0xEF ;;
  lcd_write_cmd ST7789_RASET ;;
  lcd_write_data 0x00 ;;
  lcd_write_data 0x00 ;;
  lcd_write_data 0x01 ;;
  lcd_write_data 0x3F ;;
  lcd_write_cmd ST7789_PORCTRL ;;
  lcd_write_data 0x0C ;;
  lcd_write_data 0x0C ;;
  lcd_write_data 0x00 ;;
  lcd_write_data 0x33 ;;
  lcd_write_data 0x33 ;;
  lcd_write_cmd ST7789_GCTRL ;;
  lcd_write_data 0x35 ;;
  lcd_write_cmd ST7789_VCOMS ;;
  lcd_write_data 0x19 ;;
  lcd_write_cmd ST7789_LCMCTRL ;;
  lcd_write_data 0x2C ;;
  lcd_write_cmd ST7789_VDVVRHEN ;;
  lcd_write_data 0x01 ;;
  lcd_write_cmd ST7789_VRHS ;;
  lcd_write_data 0x12 ;;
  lcd_write_cmd ST7789_VDVS ;;
  lcd_write_data 0x20 ;;
  lcd_write_cmd ST7789_FRCTRL2 ;;
  lcd_write_data 0x0F ;;
  lcd_write_cmd ST7789_PWCTRL1 ;;
  lcd_write_data 0xA4 ;;
  lcd_write_data 0xA1 ;;
  lcd_write_cmd ST7789_PVGAMCTRL ;;
  lcd_write_data 0xD0 ;;
  lcd_write_data 0x04 ;;
  lcd_write_data 0x0D ;;
  lcd_write_data 0x11 ;;
  lcd_write_data 0x13 ;;
  lcd_write_data 0x2B ;;
  lcd_write_data 0x3F ;;
  lcd_write_data 0x54 ;;
  lcd_write_data 0x4C ;;
  lcd_write_data 0x18 ;;
  lcd_write_data 0x0D ;;
  lcd_write_data 0x0B ;;
  lcd_write_data 0x1F ;;
  lcd_write_data 0x23 ;;
  lcd_write_cmd ST7789_NVGAMCTRL ;;
  lcd_write_data 0xD0 ;;
  lcd_write_data 0x04 ;;
  lcd_write_data 0x0C ;;
  lcd_write_data 0x11 ;;
  lcd_write_data 0x13 ;;
  lcd_write_data 0x2C ;;
  lcd_write_data 0x3F ;;
  lcd_write_data 0x44 ;;
  lcd_write_data 0x51 ;;
  lcd_write_data 0x2F ;;
  lcd_write_data 0x1F ;;
  lcd_write_data 0x1F ;;
  lcd_write_data 0x20 ;;
  lcd_write_data 0x23 ;;
  lcd_write_cmd ST7789_NORON ;;
  lcd_delay_ms 10 ;;
  lcd_write_cmd ST7789_DISPON ;;
  lcd_delay_ms 100.

(** ** Flush *)

(** [lv_area_t]: four [int16_t] coordinates. *)
Record lv_area_t := Area { x1 : Z; y1 : Z; x2 : Z; y2 : Z }.

Definition area_ok (a : lv_area_t) : Prop :=
  is_int16 (x1 a) /\ is_int16 (y1 a) /\ is_int16 (x2 a) /\ is_int16 (y2 a).

(** [drv] is the address of the display driver, [color_p] the byte object
    behind the colour pointer.  The products are computed in [int] and
    stored in a [uint32_t]; [size * 2] is a [uint32_t] that the call
    converts to the [uint16_t] length parameter of [lcd_write_data_buf]. *)
Definition lcd_flush (drv : Z) (area : lv_area_t) (color_p : list Z) : M unit :=
  lcd_set_address_window (x1 area) (y1 area) (x2 area) (y2 area) ;;
  let size := to_uint32 ((x2 area - x1 area + 1) * (y2 area - y1 area + 1)) in
  lcd_write_data_buf color_p (to_uint32 (size * 2)) ;;
  lv_disp_flush_ready drv.

(** ** Reading a log *)

(** The calls a computation adds to the log when run from [p]. *)
Definition emitted {A} (c : M A) (p : platform) : list event :=
  drop (length (bus p)) (bus (exec c p)).

(** One SPI write as the controller sees it: the levels of chip-select and
    of command/data-select while it is clocked, the buffer and the length.
    A level is [None] as long as the log has not written the pin. *)
Record transfer := Transfer {
  t_cs : option Z;
  t_dc : option Z;
  t_buf : list Z;
  t_len : Z
}.

(** The bytes clocked out: the first [t_len] of the buffer. *)
Definition t_bytes (t : transfer) : list Z := take (Z.to_nat (t_len t)) (t_buf t).

Fixpoint wire (cs dc : option Z) (evs : list event) : list transfer :=
  match evs with
  | [] => []
  | GpioWrite pin v :: r =>
      wire (if pin =? LCD_CS_PIN then Some v else cs)
           (if pin =? LCD_DC_PIN then Some v else dc) r
  | SpiWrite buf len :: r => Transfer cs dc buf len :: wire cs dc r
  | _ :: r => wire cs dc r
  end.

(** Chip-select is active low; command/data-select is 0 for a command and
    1 for data. *)
Definition is_command (t : transfer) : bool :=
  match t_cs t, t_dc t with
  | Some 0, Some 0 => true
  | _, _ => false
  end.

Definition is_data (t : transfer) : bool :=
  match t_cs t, t_dc t with
  | Some 0, Some 1 => true
  | _, _ => false
  end.

(** Bytes clocked out with the line in the data state. *)
Definition data_bytes (ts : list transfer) : Z :=
  fold_right (fun t n => if is_data t then t_len t + n else n) 0 ts.

Definition spi_lens (evs : list event) : list Z :=
  omap (fun e => match e with SpiWrite _ len => Some len | _ => None end) evs.

Definition spi_count (evs : list event) : nat := length (spi_lens evs).

Definition is_pin_write (pin : Z) (e : event) : bool :=
  match e with GpioWrite q _ => q =? pin | _ => false end.

Definition is_cs_assert (e : event) : bool :=
  match e with GpioWrite q v => (q =? LCD_CS_PIN) && (v =? 0) | _ => false end.

Definition is_flush_ready (e : event) : bool :=
  match e with FlushReady _ => true | _ => false end.

Definition is_spi_write (e : event) : bool :=
  match e with SpiWrite _ _ => true | _ => false end.

Fixpoint count (f : event -> bool) (evs : list event) : nat :=
  match evs with
  | [] => 0%nat
  | e :: r => ((if f e then 1 else 0) + count f r)%nat
  end.

Definition spin_iterations (evs : list event) : list Z :=
  omap (fun e => match e with Spin n => Some n | _ => None end) evs.

(** Parameter bytes that follow a command: the data transfers up to the
    next command. *)
Fixpoint params (ts : list transfer) : list Z :=
  match ts with
  | [] => []
  | t :: r => if is_data t then t_bytes t ++ params r else []
  end.

(** The log as a list of commands, each with its parameter bytes. *)
Fixpoint commands (ts : list transfer) : list (Z * list Z) :=
  match ts with
  | [] => []
  | t :: r =>
      if is_command t then (hd 0 (t_bytes t), params r) :: commands r
      else commands r
  end.

(** ** Framing discipline *)

(** Where the bus is between two calls of the log.  [Idle dc_set]:
    chip-select is high, [dc_set] tells whether command/data-select has
    been written since chip-select was last released.  [Selected]:
    chip-select is low and nothing has been clocked yet.  [Sent]: one
    transfer has been clocked under the current selection. *)
Inductive framing :=
| Idle (dc_set : bool)
| Selected
| Sent.

Definition frame_step (s : framing) (e : event) : option framing :=
  match s, e with
  | Idle dc_set, GpioWrite pin v =>
      if pin =? LCD_DC_PIN then Some (Idle true)
      else if pin =? LCD_CS_PIN then
        if v =? 0 then (if dc_set then Some Selected else None)
        else Some (Idle dc_set)
      else Some s
  | Idle _, SpiWrite _ _ => None
  | Idle _, _ => Some s
  | Selected, SpiWrite _ _ => Some Sent
  | Selected, _ => None
  | Sent, GpioWrite pin v =>
      if (pin =? LCD_CS_PIN) && negb (v =? 0) then Some (Idle false) else None
  | Sent, _ => None
  end.

Fixpoint frame_run (s : framing) (evs : list event) : option framing :=
  match evs with
  | [] => Some s
  | e :: r =>
      match frame_step s e with
      | Some s' => frame_run s' r
      | None => None
      end
  end.

(** A log is well framed when, started with chip-select released, every
    selection is preceded by a write of command/data-select, spans exactly
    one SPI write during which no other line moves, and is released again
    by the end. *)
Definition framed (evs : list event) : bool :=
  match frame_run (Idle false) evs with
  | Some (Idle _) => true
  | _ => false
  end.

(** ** The logs of the driver's operations *)

Definition cmd_frame (cmd : Z) : list event :=
  [GpioWrite LCD_DC_PIN LCD_CMD; GpioWrite LCD_CS_PIN 0;
   SpiWrite [to_uint8 cmd] 1; GpioWrite LCD_CS_PIN 1].

Definition data_frame (data : Z) : list event :=
  [GpioWrite LCD_DC_PIN LCD_DATA; GpioWrite LCD_CS_PIN 0;
   SpiWrite [to_uint8 data] 1; GpioWrite LCD_CS_PIN 1].

Definition block_frame (buf : list Z) (len : Z) : list event :=
  [GpioWrite LCD_DC_PIN LCD_DATA; GpioWrite LCD_CS_PIN 0;
   SpiWrite buf (to_uint16 len); GpioWrite LCD_CS_PIN 1].

(** [runs c evs]: from every platform state, [c] behaves as the calls
    [evs] made in this order. *)
Definition runs {A} (c : M A) (evs : list event) : Prop :=
  forall p, exec c p = replay evs p.

(** How the controller classifies a transfer. *)
Inductive kind := KCommand | KData.

Definition classify (t : transfer) : option kind :=
  if is_command t then Some KCommand
  else if is_data t then Some KData
  else None.

Definition tagged (t : transfer) : option kind * list Z := (classify t, t_bytes t).

(** A 16-bit coordinate as two big-endian bytes, in the words of the
    wire protocol: most significant byte first. *)
Definition be16 (v : Z) : list Z := [v / 256; v mod 256].

Definition command_byte (c : Z) : option kind * list Z := (Some KCommand, [c]).
Definition data_byte (d : Z) : option kind * list Z := (Some KData, [d]).

(** The calls of [lcd_set_address_window] on its four 16-bit arguments. *)
Definition window_log (x0 y0 x1 y1 : Z) : list event :=
  cmd_frame ST7789_CASET ++
  data_frame (Z.shiftr x0 8) ++ data_frame (Z.land x0 0xFF) ++
  data_frame (Z.shiftr x1 8) ++ data_frame (Z.land x1 0xFF) ++
  cmd_frame ST7789_RASET ++
  data_frame (Z.shiftr y0 8) ++ data_frame (Z.land y0 0xFF) ++
  data_frame (Z.shiftr y1 8) ++ data_frame (Z.land y1 0xFF) ++
  cmd_frame ST7789_RAMWR.

(** The register writes of [lcd_init] between sleep-out and
    normal-display-on, as they stand in the source: command, parameters. *)
Definition register_table : list (Z * list Z) :=
  [ (ST7789_COLMOD, [0x55]);
    (ST7789_MADCTL, [0x00]);
    (ST7789_CASET, [0x00; 0x00; 0x00; 0xEF]);
    (ST7789_RASET, [0x00; 0x00; 0x01; 0x3F]);
    (ST7789_PORCTRL, [0x0C; 0x0C; 0x00; 0x33; 0x33]);
    (ST7789_GCTRL, [0x35]);
    (ST7789_VCOMS, [0x19]);
    (ST7789_LCMCTRL, [0x2C]);
    (ST7789_VDVVRHEN, [0x01]);
    (ST7789_VRHS, [0x12]);
    (ST7789_VDVS, [0x20]);
    (ST7789_FRCTRL2, [0x0F]);
    (ST7789_PWCTRL1, [0xA4; 0xA1]);
    (ST7789_PVGAMCTRL,
      [0xD0; 0x04; 0x0D; 0x11; 0x13; 0x2B; 0x3F; 0x54; 0x4C; 0x18; 0x0D; 0x0B; 0x1F; 0x23]);
    (ST7789_NVGAMCTRL,
      [0xD0; 0x04; 0x0C; 0x11; 0x13; 0x2C; 0x3F; 0x44; 0x51; 0x2F; 0x1F; 0x1F; 0x20; 0x23]) ].

Definition register_log (r : Z * list Z) : list event :=
  cmd_frame (fst r) ++ flat_map data_frame (snd r).

Definition spin_ms (ms : Z) : event := Spin (to_uint32 (to_uint32 ms * 1000)).

(** The calls of [lcd_init], in order. *)
Definition init_log : list event :=
  [GpioConfig LCD_CS_PIN TUYA_GPIO_OUTPUT; GpioConfig LCD_DC_PIN TUYA_GPIO_OUTPUT;
   GpioConfig LCD_RST_PIN TUYA_GPIO_OUTPUT; GpioConfig LCD_BL_PIN TUYA_GPIO_OUTPUT;
   SpiInit;
   GpioWrite LCD_RST_PIN 0; spin_ms 10;
   GpioWrite LCD_RST_PIN 1; spin_ms 120;
   GpioWrite LCD_BL_PIN 1] ++
  cmd_frame ST7789_SWRESET ++ [spin_ms 150] ++
  cmd_frame ST7789_SLPOUT ++ [spin_ms 10] ++
  flat_map register_log register_table ++
  cmd_frame ST7789_NORON ++ [spin_ms 10] ++
  cmd_frame ST7789_DISPON ++ [spin_ms 100].

(** ** Flush geometry *)

Definition width (a : lv_area_t) : Z := x2 a - x1 a + 1.
Definition height (a : lv_area_t) : Z := y2 a - y1 a + 1.

(** The rectangle lies within the panel. *)
Definition in_panel (a : lv_area_t) : Prop :=
  0 <= x1 a <= x2 a /\ x2 a < LCD_WIDTH /\ 0 <= y1 a <= y2 a /\ y2 a < LCD_HEIGHT.

(** The product of [lcd_flush] stays within [int]. *)
Definition size_in_int (a : lv_area_t) : Prop :=
  - 2 ^ 31 <= width a * height a < 2 ^ 31.

(** The length that [lcd_flush] hands to [lcd_write_data_buf], after the
    conversion to its [uint16_t] parameter. *)
Definition flush_len (a : lv_area_t) : Z :=
  to_uint16 (to_uint32 (to_uint32 ((x2 a - x1 a + 1) * (y2 a - y1 a + 1)) * 2)).

Definition flush_log (drv : Z) (a : lv_area_t) (color_p : list Z) : list event :=
  window_log (to_uint16 (x1 a)) (to_uint16 (y1 a)) (to_uint16 (x2 a)) (to_uint16 (y2 a)) ++
  block_frame color_p (flush_len a) ++
  [FlushReady drv].

(** The pixel burst of a flush: the transfers that follow the memory-write
    command, the last command of the log. *)
Fixpoint after_last_command (ts : list transfer) : list transfer :=
  match ts with
  | [] => []
  | t :: r =>
      if existsb is_command r then after_last_command r
      else if is_command t then r else t :: r
  end.

Definition pixel_burst (evs : list event) : list transfer :=
  after_last_command (wire None None evs).

(** ** Transport failure *)

(** The coming [tuya_spi_write] returns a status other than 0. *)
Definition spi_write_fails (p : platform) : Prop := hd 0 (spi_status p) <> 0.

(** A failure is surfaced when the caller can tell the failing run from a
    successful one by what the operation returns. *)
Definition surfaced {A} (c : M A) (p_fail p_ok : platform) : Prop :=
  result c p_fail <> result c p_ok.

(** ** Reading the window back *)

Definition decode_be16 (hi lo : Z) : Z := 256 * hi + lo.

(** The rectangle a command stream addresses when it opens with column
    set, row set and memory write: (x0, y0, x1, y1), in the argument order
    of [lcd_set_address_window]. *)
Definition decode_window (cmds : list (Z * list Z)) : option (Z * Z * Z * Z) :=
  match cmds with
  | (ca, [a; b; c; d]) :: (ra, [e; f; g; h]) :: (wr, _) :: _ =>
      if (ca =? ST7789_CASET) && (ra =? ST7789_RASET) && (wr =? ST7789_RAMWR)
      then Some (decode_be16 a b, decode_be16 e f, decode_be16 c d, decode_be16 g h)
      else None
  | _ => None
  end.

(** ** Pin levels read off a log *)

(** The value of the last write to [pin] in a log, if any. *)
Fixpoint last_write (pin : Z) (evs : list event) : option Z :=
  match evs with
  | [] => None
  | e :: r =>
      match last_write pin r with
      | Some v => Some v
      | None =>
          match e with
          | GpioWrite q v => if q =? pin then Some v else None
          | _ => None
          end
      end
  end.

Definition is_setup (e : event) : bool :=
  match e with GpioConfig _ _ | SpiInit => true | _ => false end.

Definition is_spin (e : event) : bool :=
  match e with Spin _ => true | _ => false end.

Definition is_gpio_write (e : event) : bool :=
  match e with GpioWrite _ _ => true | _ => false end.

(** The pins [lcd_init] configures as outputs. *)
Definition configured_pins : list Z := [LCD_CS_PIN; LCD_DC_PIN; LCD_RST_PIN; LCD_BL_PIN].

Definition writes_unconfigured (e : event) : bool :=
  match e with
  | GpioWrite q _ => negb (existsb (Z.eqb q) configured_pins)
  | _ => false
  end.

(** ** The busy loop, step by step *)

(** [for (volatile uint32_t i = 0; i < bound; i++);] started at [i]: the
    number of passes through the (empty) body, [None] when [fuel] steps do
    not reach the exit.  The counter is a [uint32_t]. *)
Fixpoint delay_loop (fuel : nat) (i bound : Z) : option Z :=
  match fuel with
  | O => None
  | S f =>
      if i <? bound
      then option_map Z.succ (delay_loop f (to_uint32 (i + 1)) bound)
      else Some 0
  end.

(** The bound of the loop of [lcd_delay_ms(ms)]: [ms * 1000] in [uint32_t]. *)
Definition delay_bound (ms : Z) : Z := to_uint32 (to_uint32 ms * 1000).

(** ** Sequences of driver calls *)

(** The two entry points of tuya_lcd.h. *)
Inductive call :=
| CallInit
| CallFlush (drv : Z) (area : lv_area_t) (color_p : list Z).

Definition do_call (c : call) : M unit :=
  match c with
  | CallInit => lcd_init
  | CallFlush drv area color_p => lcd_flush drv area color_p
  end.

Fixpoint do_calls (cs : list call) : M unit :=
  match cs with
  | [] => ret tt
  | c :: r => do_call c ;; do_calls r
  end.

Definition call_log (c : call) : list event :=
  match c with
  | CallInit => init_log
  | CallFlush drv area color_p => flush_log drv area color_p
  end.

Definition is_flush_call (c : call) : bool :=
  match c with CallFlush _ _ _ => true | CallInit => false end.

Fixpoint flush_calls (cs : list call) : nat :=
  match cs with
  | [] => 0%nat
  | c :: r => ((if is_flush_call c then 1 else 0) + flush_calls r)%nat
  end.

Fixpoint init_calls (cs : list call) : nat :=
  match cs with
  | [] => 0%nat
  | c :: r => ((if is_flush_call c then 0 else 1) + init_calls r)%nat
  end.

(** ** The draw buffer of tuya_app_main.c *)


(** * Properties *)

Section Replay.

Lemma replay_app (e1 e2 : list event) (p : platform) :
  replay (e1 ++ e2) p = replay e2 (replay e1 p).
Proof. unfold replay. apply fold_left_app. Qed.

Lemma react_bus (e : event) (p : platform) : bus (react e p) = bus p ++ [e].
Proof. destruct e; reflexivity. Qed.

Lemma replay_bus (evs : list event) :
  forall p, bus (replay evs p) = bus p ++ evs.
Proof.
  induction evs as [|e r IH]; intros p; simpl.
  - now rewrite app_nil_r.
  - unfold replay in IH. rewrite IH, react_bus, <- app_assoc. reflexivity.
Qed.

Lemma runs_ret {A} (a : A) : runs (ret a) [].
Proof. intros p. reflexivity. Qed.

Lemma runs_bind {A B} (c : M A) (k : A -> M B) (e1 e2 : list event) :
  runs c e1 -> (forall a, runs (k a) e2) -> runs (bind c k) (e1 ++ e2).
Proof.
  intros Hc Hk p. rewrite replay_app, <- Hc.
  unfold exec, bind in *. destruct (c p) as [a q]. simpl. apply Hk.
Qed.

Lemma runs_emitted {A} (c : M A) (evs : list event) (p : platform) :
  runs c evs -> emitted c p = evs.
Proof.
  intros H. unfold emitted. rewrite H, replay_bus.
  apply drop_app_length.
Qed.

Lemma runs_bus {A} (c : M A) (evs : list event) (p : platform) :
  runs c evs -> bus (exec c p) = bus p ++ evs.
Proof. intros H. rewrite H. apply replay_bus. Qed.

Lemma runs_gpio_config pin mode :
  runs (tuya_gpio_config pin mode) [GpioConfig (to_uint8 pin) mode].
Proof. intros p. reflexivity. Qed.

Lemma runs_gpio_write pin v :
  runs (tuya_gpio_write pin v) [GpioWrite (to_uint8 pin) (to_uint8 v)].
Proof. intros p. reflexivity. Qed.

Lemma runs_spi_init : runs tuya_spi_init [SpiInit].
Proof. intros p. reflexivity. Qed.

Lemma runs_spi_write data len :
  runs (tuya_spi_write data len) [SpiWrite data (to_uint16 len)].
Proof. intros p. reflexivity. Qed.

Lemma runs_flush_ready drv : runs (lv_disp_flush_ready drv) [FlushReady drv].
Proof. intros p. reflexivity. Qed.

Lemma runs_delay ms :
  runs (lcd_delay_ms ms) [Spin (to_uint32 (to_uint32 ms * 1000))].
Proof. intros p. reflexivity. Qed.

Lemma to_uint16_idem v : to_uint16 (to_uint16 v) = to_uint16 v.
Proof. unfold to_uint16. apply Z.mod_mod. lia. Qed.

Lemma runs_write_cmd cmd : runs (lcd_write_cmd cmd) (cmd_frame cmd).
Proof. intros p. reflexivity. Qed.

Lemma runs_write_data data : runs (lcd_write_data data) (data_frame data).
Proof. intros p. reflexivity. Qed.

Lemma runs_write_data_buf buf len :
  runs (lcd_write_data_buf buf len) (block_frame buf len).
Proof.
  intros p. unfold lcd_write_data_buf, block_frame, exec, bind, replay.
  simpl. rewrite to_uint16_idem. reflexivity.
Qed.

End Replay.

Section Logs.

Lemma runs_set_address_window x0 y0 x1 y1 :
  runs (lcd_set_address_window x0 y0 x1 y1)
       (window_log (to_uint16 x0) (to_uint16 y0) (to_uint16 x1) (to_uint16 y1)).
Proof. intros p. reflexivity. Qed.

Lemma runs_lcd_init : runs lcd_init init_log.
Proof. intros p. reflexivity. Qed.

Lemma runs_lcd_flush drv a color_p :
  runs (lcd_flush drv a color_p) (flush_log drv a color_p).
Proof.
  unfold lcd_flush, flush_log.
  apply runs_bind; [apply runs_set_address_window | intros _].
  apply runs_bind; [| intros _; apply runs_flush_ready].
  unfold flush_len, block_frame. rewrite to_uint16_idem.
  apply runs_write_data_buf.
Qed.

End Logs.

Create HintDb runs.
#[local] Hint Resolve runs_write_cmd runs_write_data runs_write_data_buf
  runs_set_address_window runs_lcd_init runs_lcd_flush : runs.

(** Replace the calls emitted by an operation by its log. *)
Ltac to_log :=
  repeat match goal with
  | |- context [emitted ?c ?p] =>
      let H := fresh "Hruns" in
      eassert (H : runs c _) by eauto with runs;
      rewrite (runs_emitted c _ p H); clear H
  | |- context [bus (exec ?c ?p)] =>
      let H := fresh "Hruns" in
      eassert (H : runs c _) by eauto with runs;
      rewrite (runs_bus c _ p H); clear H
  end.

(** ** Window protocol *)

Section Window.

Lemma hi_byte (v : Z) :
  is_uint16 v -> to_uint8 (Z.shiftr (to_uint16 v) 8) = v / 256.
Proof.
  unfold is_uint16, to_uint8, to_uint16. intros H.
  rewrite (Z.mod_small v) by lia.
  rewrite Z.shiftr_div_pow2 by lia. change (2 ^ 8) with 256.
  apply Z.mod_small.
  split; [apply Z.div_pos; lia | apply Z.div_lt_upper_bound; lia].
Qed.

Lemma lo_byte (v : Z) :
  is_uint16 v -> to_uint8 (Z.land (to_uint16 v) 0xFF) = v mod 256.
Proof.
  unfold is_uint16, to_uint8, to_uint16. intros H.
  rewrite (Z.mod_small v) by lia.
  change 0xFF with (Z.ones 8). rewrite Z.land_ones by lia.
  change (2 ^ 8) with 256. apply Z.mod_mod. lia.
Qed.

(** [be16] splits a 16-bit value into two bytes, the high one first. *)
Lemma be16_value (v : Z) :
  is_uint16 v ->
  exists hi lo, be16 v = [hi; lo] /\ is_uint8 hi /\ is_uint8 lo /\ v = 256 * hi + lo.
Proof.
  unfold is_uint16, is_uint8. intros H. exists (v / 256), (v mod 256).
  split; [reflexivity |].
  pose proof (Z.mod_pos_bound v 256 ltac:(lia)).
  pose proof (Z.div_mod v 256 ltac:(lia)).
  repeat split; lia.
Qed.

Lemma window_wire (x0 y0 x1 y1 : Z) (cs dc : option Z) :
  is_uint16 x0 -> is_uint16 y0 -> is_uint16 x1 -> is_uint16 y1 ->
  map tagged
    (wire cs dc (window_log (to_uint16 x0) (to_uint16 y0) (to_uint16 x1) (to_uint16 y1))) =
  command_byte 0x2A :: map data_byte (be16 x0 ++ be16 x1) ++
  command_byte 0x2B :: map data_byte (be16 y0 ++ be16 y1) ++
  [command_byte 0x2C].
Proof.
  intros Hx0 Hy0 Hx1 Hy1.
  cbv [window_log cmd_frame data_frame app wire map tagged classify
       is_command is_data t_cs t_dc t_bytes t_len t_buf be16 command_byte data_byte
       LCD_CS_PIN LCD_DC_PIN LCD_CMD LCD_DATA P8 P9
       ST7789_CASET ST7789_RASET ST7789_RAMWR].
  change (9 =? 8) with false. change (9 =? 9) with true.
  change (8 =? 8) with true. change (8 =? 9) with false.
  cbv iota.
  change (take (Z.to_nat 1)) with (@take Z 1). cbn [take].
  rewrite !hi_byte, !lo_byte by assumption.
  reflexivity.
Qed.

Lemma in_panel_uint16 (v bound : Z) : 0 <= v -> v < bound -> bound <= 320 -> is_uint16 v.
Proof. unfold is_uint16. lia. Qed.

(** C3: for a rectangle inside the panel, the transfers of a window-set
    call are exactly: command 0x2A, data x0_hi, x0_lo, x1_hi, x1_lo,
    command 0x2B, data y0_hi, y0_lo, y1_hi, y1_lo, command 0x2C with no
    parameter; each transfer carries one byte, command bytes go out with
    the select line in the command state and address bytes with the line
    in the data state, and nothing else is transferred. *)
Theorem window_set_sequence (x0 y0 x1 y1 : Z) (cs dc : option Z) (p : platform) :
  0 <= x0 <= x1 -> x1 < LCD_WIDTH -> 0 <= y0 <= y1 -> y1 < LCD_HEIGHT ->
  map tagged (wire cs dc (emitted (lcd_set_address_window x0 y0 x1 y1) p)) =
  command_byte 0x2A :: map data_byte (be16 x0 ++ be16 x1) ++
  command_byte 0x2B :: map data_byte (be16 y0 ++ be16 y1) ++
  [command_byte 0x2C].
Proof.
  unfold LCD_WIDTH, LCD_HEIGHT. intros Hx0 Hx1 Hy0 Hy1.
  to_log.
  apply window_wire; unfold is_uint16; lia.
Qed.

Lemma window_set_sequence_witness :
  map tagged (wire None None
    (emitted (lcd_set_address_window 0 0 239 9) (Platform ∅ [] []))) =
  [command_byte 0x2A; data_byte 0x00; data_byte 0x00; data_byte 0x00; data_byte 0xEF;
   command_byte 0x2B; data_byte 0x00; data_byte 0x00; data_byte 0x00; data_byte 0x09;
   command_byte 0x2C].
Proof.
  apply (window_set_sequence 0 0 239 9 None None (Platform ∅ [] []));
    unfold LCD_WIDTH, LCD_HEIGHT; lia.
Defined.

End Window.

(** ** Initialisation sequence *)

Section Init.

(** C4: initialisation programs the registers in the order colour mode,
    memory access, column range 0..239, row range 0..319, porch control,
    gate control, VCOMS, LCM control, VDV/VRH enable, VRH, VDV, frame
    rate control 2, power control 1, positive gamma (14 bytes), negative
    gamma (14 bytes); nothing is left out and each command byte is
    followed by its parameter bytes.  The whole command stream of
    [lcd_init] is software reset, sleep out, this table, normal display
    on, display on. *)
Theorem init_register_order (cs dc : option Z) (p : platform) :
  commands (wire cs dc (emitted lcd_init p)) =
    [(ST7789_SWRESET, []); (ST7789_SLPOUT, [])] ++ register_table ++
    [(ST7789_NORON, []); (ST7789_DISPON, [])]
  /\ map fst register_table =
       [0x3A; 0x36; 0x2A; 0x2B; 0xB2; 0xB7; 0xBB; 0xC0; 0xC2; 0xC3; 0xC4; 0xC6;
        0xD0; 0xE0; 0xE1]
  /\ map snd register_table !! 2%nat = Some (be16 0 ++ be16 (LCD_WIDTH - 1))
  /\ map snd register_table !! 3%nat = Some (be16 0 ++ be16 (LCD_HEIGHT - 1))
  /\ length <$> (map snd register_table !! 13%nat) = Some 14%nat
  /\ length <$> (map snd register_table !! 14%nat) = Some 14%nat.
Proof.
  to_log.
  repeat split; reflexivity.
Qed.

(** The busy loops of [lcd_init], in order, by their iteration counts:
    after reset low, after reset high, after software reset, after sleep
    out, after normal display on, after display on. *)
Lemma init_busy_loops (p : platform) :
  spin_iterations (emitted lcd_init p) =
  [10 * 1000; 120 * 1000; 150 * 1000; 10 * 1000; 10 * 1000; 100 * 1000].
Proof. to_log. reflexivity. Qed.

(** The calls of [lcd_init] in full: where each busy loop stands. *)
Lemma init_schedule (p : platform) : emitted lcd_init p = init_log.
Proof. apply runs_emitted, runs_lcd_init. Qed.

End Init.

(** ** Bus framer *)

Section Framer.

(** The checker rejects logs that break the discipline. *)
Example framed_rejects_left_selected :
  framed [GpioWrite LCD_DC_PIN 0; GpioWrite LCD_CS_PIN 0; SpiWrite [0x2C] 1] = false.
Proof. reflexivity. Qed.

Example framed_rejects_select_line_change :
  framed [GpioWrite LCD_DC_PIN 0; GpioWrite LCD_CS_PIN 0; GpioWrite LCD_DC_PIN 1;
          SpiWrite [0x2C] 1; GpioWrite LCD_CS_PIN 1] = false.
Proof. reflexivity. Qed.

Example framed_rejects_missing_select_line :
  framed [GpioWrite LCD_CS_PIN 0; SpiWrite [0x2C] 1; GpioWrite LCD_CS_PIN 1] = false.
Proof. reflexivity. Qed.

Example framed_rejects_two_transfers :
  framed [GpioWrite LCD_DC_PIN 1; GpioWrite LCD_CS_PIN 0; SpiWrite [1] 1;
          SpiWrite [2] 1; GpioWrite LCD_CS_PIN 1] = false.
Proof. reflexivity. Qed.

Example framed_rejects_unselected_transfer :
  framed [GpioWrite LCD_DC_PIN 1; SpiWrite [1] 1] = false.
Proof. reflexivity. Qed.

Lemma frame_levels (d : Z) (e : event) (p : platform) :
  let q := replay [GpioWrite LCD_DC_PIN d; GpioWrite LCD_CS_PIN 0; e;
                   GpioWrite LCD_CS_PIN 1] p in
  is_spi_write e = true ->
  levels q !! LCD_CS_PIN = Some 1 /\ levels q !! LCD_DC_PIN = Some d.
Proof.
  destruct e; simpl; try discriminate. intros _. split.
  - apply lookup_insert_eq.
  - rewrite !lookup_insert_ne by (unfold LCD_CS_PIN, LCD_DC_PIN, P8, P9; lia).
    apply lookup_insert_eq.
Qed.

Lemma cs_high_after_cmd cmd p :
  levels (exec (lcd_write_cmd cmd) p) !! LCD_CS_PIN = Some 1 /\
  levels (exec (lcd_write_cmd cmd) p) !! LCD_DC_PIN = Some LCD_CMD.
Proof. rewrite runs_write_cmd. now apply frame_levels. Qed.

Lemma cs_high_after_data data p :
  levels (exec (lcd_write_data data) p) !! LCD_CS_PIN = Some 1 /\
  levels (exec (lcd_write_data data) p) !! LCD_DC_PIN = Some LCD_DATA.
Proof. rewrite runs_write_data. now apply frame_levels. Qed.

Lemma cs_high_after_block buf len p :
  levels (exec (lcd_write_data_buf buf len) p) !! LCD_CS_PIN = Some 1 /\
  levels (exec (lcd_write_data_buf buf len) p) !! LCD_DC_PIN = Some LCD_DATA.
Proof. rewrite runs_write_data_buf. now apply frame_levels. Qed.

(** C8: each of [lcd_write_cmd], [lcd_write_data], [lcd_write_data_buf]
    writes command/data-select first, then holds chip-select low for
    exactly one SPI write during which no other line is touched, and
    releases it before it returns: its log is well framed and the level
    of chip-select it leaves behind is high. *)
Theorem framer_invariant (cmd data : Z) (buf : list Z) (len : Z) (p : platform) :
  (framed (emitted (lcd_write_cmd cmd) p) = true /\
   levels (exec (lcd_write_cmd cmd) p) !! LCD_CS_PIN = Some 1) /\
  (framed (emitted (lcd_write_data data) p) = true /\
   levels (exec (lcd_write_data data) p) !! LCD_CS_PIN = Some 1) /\
  (framed (emitted (lcd_write_data_buf buf len) p) = true /\
   levels (exec (lcd_write_data_buf buf len) p) !! LCD_CS_PIN = Some 1).
Proof.
  to_log.
  repeat split; try reflexivity.
  - apply cs_high_after_cmd.
  - apply cs_high_after_data.
  - apply cs_high_after_block.
Qed.

(** The discipline carries over to the operations built from the three
    framer calls. *)
Lemma init_framed (p : platform) : framed (emitted lcd_init p) = true.
Proof. to_log. reflexivity. Qed.

Lemma flush_framed drv a color_p (p : platform) :
  framed (emitted (lcd_flush drv a color_p) p) = true.
Proof. to_log. reflexivity. Qed.

End Framer.

(** ** Transport failure *)

Section Failure.

(** With a failing transport [lcd_write_cmd] hands its caller the same
    value as with a working one. *)
Lemma write_cmd_failure_not_surfaced :
  spi_write_fails (Platform ∅ [] [-1]) /\
  ~ spi_write_fails (Platform ∅ [] [0]) /\
  ~ surfaced (lcd_write_cmd 0x2C) (Platform ∅ [] [-1]) (Platform ∅ [] [0]).
Proof.
  unfold spi_write_fails, surfaced. simpl. repeat split.
  - lia.
  - intros H. now apply H.
  - intros H. now apply H.
Qed.

(** C5, as the code has it: when the transport write fails, each framer
    operation still returns nothing to its caller and makes the very
    calls of a successful run: a single SPI write (no second attempt)
    followed by the release of chip-select, which is left high;
    command/data-select stays at the level chosen for the transfer. *)
Theorem framer_ignores_transport_status
    (cmd data : Z) (buf : list Z) (len : Z) (p : platform) :
  spi_write_fails p ->
  (result (lcd_write_cmd cmd) p = tt /\
   emitted (lcd_write_cmd cmd) p = cmd_frame cmd /\
   spi_count (emitted (lcd_write_cmd cmd) p) = 1%nat /\
   levels (exec (lcd_write_cmd cmd) p) !! LCD_CS_PIN = Some 1 /\
   levels (exec (lcd_write_cmd cmd) p) !! LCD_DC_PIN = Some LCD_CMD) /\
  (result (lcd_write_data data) p = tt /\
   emitted (lcd_write_data data) p = data_frame data /\
   spi_count (emitted (lcd_write_data data) p) = 1%nat /\
   levels (exec (lcd_write_data data) p) !! LCD_CS_PIN = Some 1 /\
   levels (exec (lcd_write_data data) p) !! LCD_DC_PIN = Some LCD_DATA) /\
  (result (lcd_write_data_buf buf len) p = tt /\
   emitted (lcd_write_data_buf buf len) p = block_frame buf len /\
   spi_count (emitted (lcd_write_data_buf buf len) p) = 1%nat /\
   levels (exec (lcd_write_data_buf buf len) p) !! LCD_CS_PIN = Some 1 /\
   levels (exec (lcd_write_data_buf buf len) p) !! LCD_DC_PIN = Some LCD_DATA).
Proof.
  intros _.
  to_log.
  pose proof (cs_high_after_cmd cmd p) as [? ?].
  pose proof (cs_high_after_data data p) as [? ?].
  pose proof (cs_high_after_block buf len p) as [? ?].
  repeat split; try assumption; try reflexivity.
Qed.

Lemma framer_ignores_transport_status_witness :
  result (lcd_write_cmd 0x2C) (Platform ∅ [] [-1]) = tt /\
  spi_count (emitted (lcd_write_cmd 0x2C) (Platform ∅ [] [-1])) = 1%nat /\
  levels (exec (lcd_write_cmd 0x2C) (Platform ∅ [] [-1])) !! LCD_CS_PIN = Some 1.
Proof.
  destruct (framer_ignores_transport_status 0x2C 0 [] 0 (Platform ∅ [] [-1]))
    as [(Hr & _ & Hn & Hcs & _) _].
  - unfold spi_write_fails. simpl. lia.
  - exact (conj Hr (conj Hn Hcs)).
Defined.

End Failure.

(** ** Flush *)

Section Flush.

(** The 16-bit length parameter keeps the byte count modulo 2^16. *)
Lemma flush_len_mod (a : lv_area_t) :
  flush_len a = (width a * height a * 2) mod 2 ^ 16.
Proof.
  unfold flush_len, width, height, to_uint16, to_uint32.
  set (n := (x2 a - x1 a + 1) * (y2 a - y1 a + 1)).
  rewrite Z.mul_mod_idemp_l by lia.
  apply Z.mod_mod_divide.
  exists (2 ^ 16). reflexivity.
Qed.

Lemma flush_len_fix (a : lv_area_t) : to_uint16 (flush_len a) = flush_len a.
Proof. unfold flush_len. apply to_uint16_idem. Qed.

Lemma flush_pixel_burst drv a color_p (p : platform) :
  pixel_burst (emitted (lcd_flush drv a color_p) p) =
  [Transfer (Some 0) (Some LCD_DATA) color_p (flush_len a)].
Proof.
  to_log.
  unfold flush_log, block_frame. rewrite flush_len_fix. reflexivity.
Qed.

(** The eight address bytes of the window are data transfers too: with
    them, a flush clocks [8 + flush_len a] bytes in the data state. *)
Lemma flush_data_bytes drv a color_p (p : platform) :
  data_bytes (wire None None (emitted (lcd_flush drv a color_p) p)) = 8 + flush_len a.
Proof.
  to_log.
  unfold flush_log, block_frame. rewrite flush_len_fix.
  cbn. lia.
Qed.

Lemma flush_len_range (a : lv_area_t) : 0 <= flush_len a < 2 ^ 16.
Proof. rewrite flush_len_mod. apply Z.mod_pos_bound. lia. Qed.

(** Below 2^16 bytes nothing is lost: the pixel burst is one data
    transfer of [width * height * 2] bytes under one chip-select. *)
Lemma flush_burst_exact drv a color_p (p : platform) :
  in_panel a -> width a * height a * 2 < 2 ^ 16 ->
  data_bytes (pixel_burst (emitted (lcd_flush drv a color_p) p)) =
    width a * height a * 2 /\
  length (pixel_burst (emitted (lcd_flush drv a color_p) p)) = 1%nat /\
  count is_cs_assert (block_frame color_p (flush_len a)) = 1%nat.
Proof.
  intros Hin Hlt. rewrite flush_pixel_burst.
  assert (Hlen : flush_len a = width a * height a * 2).
  { rewrite flush_len_mod. apply Z.mod_small.
    unfold in_panel, width, height in *. nia. }
  repeat split; try reflexivity.
  unfold data_bytes. simpl. lia.
Qed.

(** The strips LVGL draws from the 240 x 10 buffer of the application
    are transferred whole. *)
Example flush_strip drv color_p (p : platform) :
  data_bytes (pixel_burst (emitted (lcd_flush drv (Area 0 0 239 9) color_p) p)) = 4800.
Proof. rewrite flush_pixel_burst. reflexivity. Qed.

(** C1 at a full-panel flush: the rectangle is inside the panel and
    needs 240 * 320 * 2 = 153600 data bytes, the pixel burst carries
    22528. *)
Theorem flush_full_panel_short (drv : Z) (color_p : list Z) (p : platform) :
  in_panel (Area 0 0 239 319) /\
  width (Area 0 0 239 319) * height (Area 0 0 239 319) * 2 = 153600 /\
  data_bytes (pixel_burst (emitted (lcd_flush drv (Area 0 0 239 319) color_p) p)) = 22528 /\
  spi_lens (emitted (lcd_flush drv (Area 0 0 239 319) color_p) p) =
    [1; 1; 1; 1; 1; 1; 1; 1; 1; 1; 1; 22528].
Proof.
  rewrite flush_pixel_burst. to_log.
  unfold in_panel, LCD_WIDTH, LCD_HEIGHT. simpl.
  repeat split; try reflexivity; lia.
Qed.

(** C10: when [width * height * 2] exceeds 65535, the length handed to
    the transport for the pixel burst is [width * height * 2] modulo
    2^16, which is less than the byte count of the rectangle. *)
Theorem flush_length_truncated (drv : Z) (a : lv_area_t) (color_p : list Z) (p : platform) :
  area_ok a -> size_in_int a -> 65535 < width a * height a * 2 ->
  map t_len (pixel_burst (emitted (lcd_flush drv a color_p) p)) =
    [(width a * height a * 2) mod 2 ^ 16] /\
  last (spi_lens (emitted (lcd_flush drv a color_p) p)) =
    Some ((width a * height a * 2) mod 2 ^ 16) /\
  (width a * height a * 2) mod 2 ^ 16 < width a * height a * 2.
Proof.
  intros _ _ Hbig. rewrite flush_pixel_burst.
  to_log.
  rewrite <- flush_len_mod. repeat split.
  - unfold flush_log, block_frame. rewrite flush_len_fix. reflexivity.
  - pose proof (flush_len_range a). lia.
Qed.

Lemma flush_length_truncated_witness :
  last (spi_lens (emitted (lcd_flush 0 (Area 0 0 239 319) []) (Platform ∅ [] []))) =
  Some 22528.
Proof.
  destruct (flush_length_truncated 0 (Area 0 0 239 319) [] (Platform ∅ [] []))
    as (_ & H & _).
  - unfold area_ok, is_int16. simpl. lia.
  - unfold size_in_int, width, height. simpl. lia.
  - unfold width, height. simpl. lia.
  - exact H.
Defined.

(** C7: a flush calls [lv_disp_flush_ready] once, as its last call: the
    window transfers and the data-block write of the pixel burst,
    chip-select release included, all come before it, and nothing
    follows it before [lcd_flush] returns. *)
Theorem flush_ready_once_last (drv : Z) (a : lv_area_t) (color_p : list Z) (p : platform) :
  let transfer_part :=
    window_log (to_uint16 (x1 a)) (to_uint16 (y1 a)) (to_uint16 (x2 a)) (to_uint16 (y2 a))
    ++ block_frame color_p (flush_len a) in
  bus (exec (lcd_flush drv a color_p) p) = bus p ++ transfer_part ++ [FlushReady drv] /\
  count is_flush_ready (emitted (lcd_flush drv a color_p) p) = 1%nat /\
  count is_flush_ready transfer_part = 0%nat /\
  count is_spi_write transfer_part = count is_spi_write (emitted (lcd_flush drv a color_p) p) /\
  last transfer_part = Some (GpioWrite LCD_CS_PIN 1).
Proof.
  intros transfer_part. subst transfer_part.
  to_log.
  unfold flush_log. rewrite <- !app_assoc.
  repeat split; reflexivity.
Qed.

(** C9: the calls of a flush depend on the rectangle and the buffer
    alone: they are the same from any two platform states, and a flush
    repeated at once logs the same calls again. *)
Theorem flush_deterministic (drv : Z) (a : lv_area_t) (color_p : list Z) (p q : platform) :
  emitted (lcd_flush drv a color_p) p = emitted (lcd_flush drv a color_p) q /\
  emitted (lcd_flush drv a color_p) (exec (lcd_flush drv a color_p) p) =
    emitted (lcd_flush drv a color_p) p /\
  emitted (lcd_flush drv a color_p ;; lcd_flush drv a color_p) p =
    emitted (lcd_flush drv a color_p) p ++ emitted (lcd_flush drv a color_p) p.
Proof.
  pose proof (runs_lcd_flush drv a color_p) as H.
  rewrite !(runs_emitted _ _ _ H).
  repeat split.
  apply runs_emitted. apply runs_bind; [exact H | intros _; exact H].
Qed.

(** A flush one column beyond the panel, with a buffer of the matching
    241 * 1 * 2 bytes, goes to the bus. *)
Lemma flush_outside_panel_not_rejected :
  ~ in_panel (Area 0 0 240 0) /\
  spi_count (emitted (lcd_flush 0 (Area 0 0 240 0) (repeat 0 482)) (Platform ∅ [] []))
    = 12%nat /\
  count (is_pin_write LCD_CS_PIN)
    (emitted (lcd_flush 0 (Area 0 0 240 0) (repeat 0 482)) (Platform ∅ [] [])) = 24%nat.
Proof.
  to_log. repeat split; try reflexivity.
  unfold in_panel, LCD_WIDTH. simpl. lia.
Qed.

(** C2, as the code has it: [lcd_flush] checks nothing and returns
    nothing; whatever the rectangle and the buffer, it makes the eleven
    window transfers and the data-block write, moves chip-select and
    command/data-select for each, and notifies LVGL. *)
Theorem flush_never_rejects (drv : Z) (a : lv_area_t) (color_p : list Z) (p : platform) :
  result (lcd_flush drv a color_p) p = tt /\
  emitted (lcd_flush drv a color_p) p = flush_log drv a color_p /\
  spi_count (emitted (lcd_flush drv a color_p) p) = 12%nat /\
  count (is_pin_write LCD_CS_PIN) (emitted (lcd_flush drv a color_p) p) = 24%nat /\
  count (is_pin_write LCD_DC_PIN) (emitted (lcd_flush drv a color_p) p) = 12%nat /\
  count is_flush_ready (emitted (lcd_flush drv a color_p) p) = 1%nat.
Proof.
  to_log.
  repeat split; reflexivity.
Qed.

End Flush.

(** * Further properties of the driver *)

(** ** The window, read back from the wire *)

Section WindowReadBack.

Lemma byte_split (v : Z) :
  decode_be16 (to_uint8 (Z.shiftr (to_uint16 v) 8)) (to_uint8 (Z.land (to_uint16 v) 0xFF))
  = to_uint16 v.
Proof.
  assert (Hu : is_uint16 (to_uint16 v)).
  { unfold is_uint16, to_uint16. apply Z.mod_pos_bound. lia. }
  rewrite <- (to_uint16_idem v) at 1 2.
  rewrite hi_byte, lo_byte by exact Hu.
  unfold decode_be16. symmetry. apply Z.div_mod. lia.
Qed.

Lemma window_commands (a b c d : Z) (cs dc : option Z) :
  commands (wire cs dc (window_log a b c d)) =
  [ (ST7789_CASET, [to_uint8 (Z.shiftr a 8); to_uint8 (Z.land a 0xFF);
                    to_uint8 (Z.shiftr c 8); to_uint8 (Z.land c 0xFF)]);
    (ST7789_RASET, [to_uint8 (Z.shiftr b 8); to_uint8 (Z.land b 0xFF);
                    to_uint8 (Z.shiftr d 8); to_uint8 (Z.land d 0xFF)]);
    (ST7789_RAMWR, []) ].
Proof. reflexivity. Qed.

(** X1: the eight address bytes of a window-set call decode, high byte
    first, to the four arguments as 16-bit values: nothing is lost in the
    split into bytes, and a negative or oversized coordinate reaches the
    controller reduced modulo 2^16. *)
Theorem window_round_trip (x0 y0 x1 y1 : Z) (cs dc : option Z) (p : platform) :
  decode_window (commands (wire cs dc (emitted (lcd_set_address_window x0 y0 x1 y1) p))) =
  Some (to_uint16 x0, to_uint16 y0, to_uint16 x1, to_uint16 y1).
Proof.
  to_log. rewrite window_commands.
  unfold decode_window. simpl andb. cbv iota.
  rewrite !byte_split. reflexivity.
Qed.

End WindowReadBack.

(** ** What a flush puts on the wire *)

Section FlushWire.

Lemma flush_commands drv (a : lv_area_t) (color_p : list Z) (cs dc : option Z) :
  commands (wire cs dc (flush_log drv a color_p)) =
  [ (ST7789_CASET,
      [to_uint8 (Z.shiftr (to_uint16 (x1 a)) 8); to_uint8 (Z.land (to_uint16 (x1 a)) 0xFF);
       to_uint8 (Z.shiftr (to_uint16 (x2 a)) 8); to_uint8 (Z.land (to_uint16 (x2 a)) 0xFF)]);
    (ST7789_RASET,
      [to_uint8 (Z.shiftr (to_uint16 (y1 a)) 8); to_uint8 (Z.land (to_uint16 (y1 a)) 0xFF);
       to_uint8 (Z.shiftr (to_uint16 (y2 a)) 8); to_uint8 (Z.land (to_uint16 (y2 a)) 0xFF)]);
    (ST7789_RAMWR, take (Z.to_nat (flush_len a)) color_p ++ []) ].
Proof.
  unfold flush_log, block_frame. rewrite flush_len_fix. reflexivity.
Qed.

Lemma flush_last_len drv (a : lv_area_t) (color_p : list Z) :
  last (spi_lens (flush_log drv a color_p)) = Some (flush_len a).
Proof.
  unfold flush_log, block_frame. rewrite flush_len_fix. reflexivity.
Qed.

(** X2: for a rectangle inside the panel whose buffer holds its
    [width * height * 2] bytes, fewer than 2^16, the controller receives
    column set with x1, x2, row set with y1, y2, and memory write followed
    by the buffer itself: every byte, in order, unchanged, and nothing
    after it. *)
Theorem flush_wire_view (drv : Z) (a : lv_area_t) (color_p : list Z)
    (cs dc : option Z) (p : platform) :
  in_panel a ->
  Z.of_nat (length color_p) = width a * height a * 2 ->
  width a * height a * 2 < 2 ^ 16 ->
  commands (wire cs dc (emitted (lcd_flush drv a color_p) p)) =
  [ (0x2A, be16 (x1 a) ++ be16 (x2 a));
    (0x2B, be16 (y1 a) ++ be16 (y2 a));
    (0x2C, color_p) ].
Proof.
  intros Hin Hlen Hsmall. to_log. rewrite flush_commands.
  assert (Hfl : flush_len a = Z.of_nat (length color_p)).
  { rewrite flush_len_mod, Hlen. apply Z.mod_small. lia. }
  rewrite Hfl, Nat2Z.id, take_ge, app_nil_r by lia.
  unfold in_panel, LCD_WIDTH, LCD_HEIGHT in Hin.
  rewrite !hi_byte, !lo_byte by (unfold is_uint16; lia).
  reflexivity.
Qed.

Lemma flush_wire_view_witness :
  commands (wire None None
    (emitted (lcd_flush 0 (Area 0 0 1 0) [0xF8; 0x00; 0x00; 0x00]) (Platform ∅ [] []))) =
  [ (0x2A, [0; 0; 0; 1]); (0x2B, [0; 0; 0; 0]); (0x2C, [0xF8; 0x00; 0x00; 0x00]) ].
Proof.
  apply (flush_wire_view 0 (Area 0 0 1 0) [0xF8; 0x00; 0x00; 0x00] None None
           (Platform ∅ [] [])).
  - unfold in_panel, LCD_WIDTH, LCD_HEIGHT. simpl. lia.
  - reflexivity.
  - unfold width, height. simpl. lia.
Defined.

(** X3: the length of the pixel write equals the byte count of the
    rectangle exactly when that count fits the 16-bit length parameter:
    [0 <= width * height * 2 < 2^16]. *)
Theorem flush_exact_iff (drv : Z) (a : lv_area_t) (color_p : list Z) (p : platform) :
  last (spi_lens (emitted (lcd_flush drv a color_p) p)) = Some (width a * height a * 2)
  <-> 0 <= width a * height a * 2 < 2 ^ 16.
Proof.
  to_log. rewrite flush_last_len, flush_len_mod. split.
  - intros H. injection H as H. rewrite <- H. apply Z.mod_pos_bound. lia.
  - intros H. f_equal. apply Z.mod_small. exact H.
Qed.

(** X4: a rectangle of width 0 or height 0 is not skipped: the window is
    still sent, a data write of length 0 is framed under chip-select and
    LVGL is notified. *)
Theorem flush_empty_rectangle (drv : Z) (a : lv_area_t) (color_p : list Z) (p : platform) :
  width a = 0 \/ height a = 0 ->
  map tagged (pixel_burst (emitted (lcd_flush drv a color_p) p)) = [(Some KData, [])] /\
  spi_lens (emitted (lcd_flush drv a color_p) p) = [1; 1; 1; 1; 1; 1; 1; 1; 1; 1; 1; 0] /\
  count is_cs_assert (emitted (lcd_flush drv a color_p) p) = 12%nat /\
  count is_flush_ready (emitted (lcd_flush drv a color_p) p) = 1%nat.
Proof.
  intros H0.
  assert (Hfl : flush_len a = 0).
  { rewrite flush_len_mod. destruct H0 as [-> | ->]; rewrite ?Z.mul_0_r; reflexivity. }
  rewrite flush_pixel_burst. to_log.
  unfold flush_log, block_frame. rewrite flush_len_fix, Hfl.
  repeat split; reflexivity.
Qed.

Lemma flush_empty_rectangle_witness :
  spi_lens (emitted (lcd_flush 0 (Area 5 0 4 9) []) (Platform ∅ [] [])) =
  [1; 1; 1; 1; 1; 1; 1; 1; 1; 1; 1; 0].
Proof.
  destruct (flush_empty_rectangle 0 (Area 5 0 4 9) [] (Platform ∅ [] [])) as (_ & H & _).
  - left. reflexivity.
  - exact H.
Defined.



End FlushWire.

(** ** Pin levels *)

Section Levels.

Lemma react_levels (pin : Z) (e : event) (p : platform) :
  levels (react e p) !! pin =
  match e with
  | GpioWrite q v => if q =? pin then Some v else levels p !! pin
  | _ => levels p !! pin
  end.
Proof.
  destruct e; try reflexivity. simpl.
  destruct (Z.eqb_spec pin0 pin) as [-> | Hne].
  - apply lookup_insert_eq.
  - now apply lookup_insert_ne.
Qed.

(** The level latched for a pin after a log is that of the last write to
    the pin, and the level before the log when the log has no such write. *)
Lemma replay_levels (pin : Z) (evs : list event) :
  forall p, levels (replay evs p) !! pin =
            match last_write pin evs with
            | Some v => Some v
            | None => levels p !! pin
            end.
Proof.
  induction evs as [|e r IH]; intros p; [reflexivity |].
  change (replay (e :: r) p) with (replay r (react e p)).
  rewrite IH. simpl. destruct (last_write pin r); [reflexivity |].
  rewrite react_levels. destruct e; try reflexivity.
  destruct (pin0 =? pin); reflexivity.
Qed.

Lemma last_write_app (pin : Z) (e1 e2 : list event) :
  last_write pin (e1 ++ e2) =
  match last_write pin e2 with
  | Some v => Some v
  | None => last_write pin e1
  end.
Proof.
  induction e1 as [|e r IH]; simpl.
  - destruct (last_write pin e2); reflexivity.
  - rewrite IH. destruct (last_write pin e2); reflexivity.
Qed.

Lemma flush_last_write_other drv a color_p (pin : Z) :
  pin <> LCD_CS_PIN -> pin <> LCD_DC_PIN ->
  last_write pin (flush_log drv a color_p) = None.
Proof.
  intros Hcs Hdc.
  assert (H8 : (LCD_CS_PIN =? pin) = false) by (apply Z.eqb_neq; congruence).
  assert (H9 : (LCD_DC_PIN =? pin) = false) by (apply Z.eqb_neq; congruence).
  unfold flush_log, window_log, cmd_frame, data_frame, block_frame.
  cbn [app last_write]. rewrite H8, H9. reflexivity.
Qed.

(** X6: a flush moves chip-select and command/data-select only.  Every
    other pin keeps its level (reset and backlight among them), no pin is
    reconfigured, the transport is not re-initialised and no busy loop is
    run; chip-select is left high and command/data-select in the data
    state. *)
Theorem flush_touches_select_lines_only
    (drv : Z) (a : lv_area_t) (color_p : list Z) (pin : Z) (p : platform) :
  pin <> LCD_CS_PIN -> pin <> LCD_DC_PIN ->
  levels (exec (lcd_flush drv a color_p) p) !! pin = levels p !! pin /\
  levels (exec (lcd_flush drv a color_p) p) !! LCD_CS_PIN = Some 1 /\
  levels (exec (lcd_flush drv a color_p) p) !! LCD_DC_PIN = Some LCD_DATA /\
  count is_setup (emitted (lcd_flush drv a color_p) p) = 0%nat /\
  count is_spin (emitted (lcd_flush drv a color_p) p) = 0%nat.
Proof.
  intros Hcs Hdc. to_log.
  rewrite !(runs_lcd_flush drv a color_p p), !replay_levels.
  rewrite (flush_last_write_other drv a color_p pin Hcs Hdc).
  repeat split; reflexivity.
Qed.

Lemma flush_touches_select_lines_only_witness :
  levels (exec (lcd_flush 0 (Area 0 0 1 0) [1; 2; 3; 4])
            (Platform {[LCD_RST_PIN := 1; LCD_BL_PIN := 1]} [] []))
    !! LCD_BL_PIN = Some 1.
Proof.
  destruct (flush_touches_select_lines_only 0 (Area 0 0 1 0) [1; 2; 3; 4] LCD_BL_PIN
              (Platform {[LCD_RST_PIN := 1; LCD_BL_PIN := 1]} [] [])) as (H & _).
  - unfold LCD_BL_PIN, LCD_CS_PIN, P11, P8. lia.
  - unfold LCD_BL_PIN, LCD_DC_PIN, P11, P9. lia.
  - rewrite H. reflexivity.
Defined.

(** X7: whatever the pin levels before, [lcd_init] returns with the reset
    line released (high), the backlight on, chip-select released and
    command/data-select in the command state. *)
Theorem init_final_levels (p : platform) :
  levels (exec lcd_init p) !! LCD_RST_PIN = Some 1 /\
  levels (exec lcd_init p) !! LCD_BL_PIN = Some 1 /\
  levels (exec lcd_init p) !! LCD_CS_PIN = Some 1 /\
  levels (exec lcd_init p) !! LCD_DC_PIN = Some LCD_CMD.
Proof.
  rewrite !(runs_lcd_init p), !replay_levels.
  repeat split; reflexivity.
Qed.

End Levels.

(** ** Order of the initialisation *)

Section InitOrder.

(** X8: [lcd_init] first configures the four control pins as outputs and
    initialises the SPI transport; only then does it write a pin or
    transfer a byte, it writes no pin other than those four, and it never
    configures or initialises again. *)
Theorem init_setup_first (p : platform) :
  exists rest,
    emitted lcd_init p =
      [GpioConfig LCD_CS_PIN TUYA_GPIO_OUTPUT; GpioConfig LCD_DC_PIN TUYA_GPIO_OUTPUT;
       GpioConfig LCD_RST_PIN TUYA_GPIO_OUTPUT; GpioConfig LCD_BL_PIN TUYA_GPIO_OUTPUT;
       SpiInit] ++ rest /\
    count is_setup rest = 0%nat /\
    count writes_unconfigured rest = 0%nat /\
    hd_error rest = Some (GpioWrite LCD_RST_PIN 0).
Proof.
  to_log. eexists. split; [reflexivity |].
  repeat split; reflexivity.
Qed.

(** X9: every transfer of [lcd_init] is a single byte sent as a command
    or as data under its own chip-select pulse: 71 transfers, 71
    chip-select assertions, 19 of them commands. *)
Theorem init_single_byte_transfers (cs dc : option Z) (p : platform) :
  forallb (fun t => (t_len t =? 1) && (is_command t || is_data t))
          (wire cs dc (emitted lcd_init p)) = true /\
  length (wire cs dc (emitted lcd_init p)) = 71%nat /\
  count is_cs_assert (emitted lcd_init p) = 71%nat /\
  length (commands (wire cs dc (emitted lcd_init p))) = 19%nat.
Proof.
  to_log. repeat split; reflexivity.
Qed.

End InitOrder.

(** ** Any sequence of driver calls *)

Section Calls.

Lemma frame_run_app (s : framing) (e1 e2 : list event) :
  frame_run s (e1 ++ e2) =
  match frame_run s e1 with
  | Some s' => frame_run s' e2
  | None => None
  end.
Proof.
  revert s. induction e1 as [|e r IH]; intros s; simpl; [reflexivity |].
  destruct (frame_step s e); [apply IH | reflexivity].
Qed.

Lemma call_log_frame (b : bool) (c : call) :
  frame_run (Idle b) (call_log c) = Some (Idle false).
Proof. destruct c, b; reflexivity. Qed.

Lemma calls_frame (cs : list call) :
  forall b, exists b', frame_run (Idle b) (flat_map call_log cs) = Some (Idle b').
Proof.
  induction cs as [|c r IH]; intros b; simpl.
  - now exists b.
  - rewrite frame_run_app, call_log_frame. apply IH.
Qed.

Lemma runs_do_call (c : call) : runs (do_call c) (call_log c).
Proof. destruct c; [apply runs_lcd_init | apply runs_lcd_flush]. Qed.

Lemma runs_do_calls (cs : list call) : runs (do_calls cs) (flat_map call_log cs).
Proof.
  induction cs as [|c r IH]; simpl.
  - apply runs_ret.
  - apply runs_bind; [apply runs_do_call | intros _; exact IH].
Qed.

Lemma count_app (f : event -> bool) (e1 e2 : list event) :
  count f (e1 ++ e2) = (count f e1 + count f e2)%nat.
Proof. induction e1 as [|e r IH]; simpl; [reflexivity | rewrite IH; lia]. Qed.

Lemma calls_flush_ready (cs : list call) :
  count is_flush_ready (flat_map call_log cs) = flush_calls cs.
Proof.
  induction cs as [|c r IH]; [reflexivity |].
  simpl flat_map. rewrite count_app, IH. destruct c; reflexivity.
Qed.

Lemma calls_spi_count (cs : list call) :
  spi_count (flat_map call_log cs) = (71 * init_calls cs + 12 * flush_calls cs)%nat.
Proof.
  unfold spi_count, spi_lens.
  induction cs as [|c r IH]; [reflexivity |].
  simpl flat_map. rewrite omap_app, length_app, IH.
  destruct c.
  - change (length (omap _ (call_log CallInit))) with 71%nat.
    cbn [init_calls flush_calls is_flush_call]. lia.
  - change (length (omap _ (call_log (CallFlush drv area color_p)))) with 12%nat.
    cbn [init_calls flush_calls is_flush_call]. lia.
Qed.

(** X10: whatever sequence of [lcd_init] and [lcd_flush] calls a client
    makes, with whatever rectangles and buffers, the log it produces is
    well framed: each SPI write sits alone in a chip-select pulse opened
    after command/data-select was written.  LVGL is notified once per
    flush, and the number of transfers is 71 per initialisation plus 12
    per flush, whatever the transport reports. *)
Theorem driver_calls_framed (cs : list call) (p : platform) :
  framed (emitted (do_calls cs) p) = true /\
  count is_flush_ready (emitted (do_calls cs) p) = flush_calls cs /\
  spi_count (emitted (do_calls cs) p) = (71 * init_calls cs + 12 * flush_calls cs)%nat.
Proof.
  rewrite (runs_emitted _ _ p (runs_do_calls cs)).
  split; [| split].
  - unfold framed. destruct (calls_frame cs false) as [b' ->]. reflexivity.
  - apply calls_flush_ready.
  - apply calls_spi_count.
Qed.

Lemma call_log_cs (c : call) : last_write LCD_CS_PIN (call_log c) = Some 1.
Proof. destruct c; reflexivity. Qed.

Lemma calls_cs (c : call) (cs : list call) :
  last_write LCD_CS_PIN (flat_map call_log (c :: cs)) = Some 1.
Proof.
  revert c. induction cs as [|d r IH]; intros c.
  - simpl. rewrite app_nil_r. apply call_log_cs.
  - change (flat_map call_log (c :: d :: r))
      with (call_log c ++ flat_map call_log (d :: r)).
    rewrite last_write_app, IH. reflexivity.
Qed.

(** X11: after any non-empty sequence of driver calls chip-select is
    high, whatever its level before; an empty sequence leaves it as it
    was. *)
Theorem driver_calls_release_chip_select (cs : list call) (p : platform) :
  levels (exec (do_calls cs) p) !! LCD_CS_PIN =
  match cs with
  | [] => levels p !! LCD_CS_PIN
  | _ :: _ => Some 1
  end.
Proof.
  rewrite (runs_do_calls cs p), replay_levels.
  destruct cs as [|c r]; [reflexivity |].
  rewrite calls_cs. reflexivity.
Qed.

End Calls.

(** ** The busy loop *)

Section Delay.

Lemma delay_loop_from (k : nat) :
  forall i bound,
    0 <= i <= bound -> bound < 2 ^ 32 -> Z.to_nat (bound - i) = k ->
    delay_loop (S k) i bound = Some (bound - i).
Proof.
  induction k as [|k IH]; intros i bound Hi Hb Hk.
  - assert (i = bound) by lia. subst i.
    cbn [delay_loop]. rewrite Z.ltb_irrefl. f_equal. lia.
  - assert (Hlt : i < bound) by lia.
    change (delay_loop (S (S k)) i bound)
      with (if i <? bound
            then option_map Z.succ (delay_loop (S k) (to_uint32 (i + 1)) bound)
            else Some 0).
    apply Z.ltb_lt in Hlt as Hltb. rewrite Hltb.
    assert (Hnext : to_uint32 (i + 1) = i + 1).
    { unfold to_uint32. apply Z.mod_small. lia. }
    rewrite Hnext, (IH (i + 1) bound) by lia.
    simpl. f_equal. lia.
Qed.

Lemma delay_bound_range (ms : Z) : 0 <= delay_bound ms < 2 ^ 32.
Proof. unfold delay_bound, to_uint32. apply Z.mod_pos_bound. lia. Qed.

(** X12: the busy loop of [lcd_delay_ms] ends for every argument: run
    step by step with a 32-bit counter, it leaves after exactly
    [delay_bound ms] passes, the count logged for the call. *)
Theorem delay_loop_terminates (ms : Z) (p : platform) :
  delay_loop (S (Z.to_nat (delay_bound ms))) 0 (delay_bound ms) = Some (delay_bound ms) /\
  spin_iterations (emitted (lcd_delay_ms ms) p) = [delay_bound ms].
Proof.
  pose proof (delay_bound_range ms) as Hr. split.
  - rewrite (delay_loop_from (Z.to_nat (delay_bound ms)) 0 (delay_bound ms)) by lia.
    f_equal. lia.
  - rewrite (runs_emitted _ _ p (runs_delay ms)). reflexivity.
Qed.

(** X13: for a 32-bit argument the loop makes the [ms * 1000] passes
    asked for exactly when [ms <= 4294967]; above, the product wraps
    modulo 2^32 and the loop is shorter than asked. *)
Theorem delay_exact_iff (ms : Z) (p : platform) :
  0 <= ms < 2 ^ 32 ->
  (spin_iterations (emitted (lcd_delay_ms ms) p) = [ms * 1000] <-> ms <= 4294967) /\
  (4294967 < ms ->
   exists n, spin_iterations (emitted (lcd_delay_ms ms) p) = [n] /\ n < ms * 1000).
Proof.
  intros Hms. rewrite (runs_emitted _ _ p (runs_delay ms)).
  change (spin_iterations [Spin (to_uint32 (to_uint32 ms * 1000))])
    with [to_uint32 (to_uint32 ms * 1000)].
  assert (Hin : to_uint32 ms = ms) by (unfold to_uint32; apply Z.mod_small; lia).
  rewrite Hin.
  pose proof (Z.mod_pos_bound (ms * 1000) (2 ^ 32) ltac:(lia)) as Hb.
  unfold to_uint32. split; [split |].
  - intros H. injection H as H. rewrite H in Hb. lia.
  - intros H. f_equal. apply Z.mod_small. lia.
  - intros H. eexists. split; [reflexivity | lia].
Qed.

Lemma delay_exact_iff_witness :
  spin_iterations (emitted (lcd_delay_ms 150) (Platform ∅ [] [])) = [150 * 1000] /\
  spin_iterations (emitted (lcd_delay_ms 4294968) (Platform ∅ [] [])) = [704].
Proof.
  split.
  - apply (delay_exact_iff 150 (Platform ∅ [] [])); lia.
  - destruct (delay_exact_iff 4294968 (Platform ∅ [] [])) as [_ H]; [lia |].
    destruct (H ltac:(lia)) as (n & Hn & _). reflexivity.
Defined.

End Delay.

(** ** What the framer puts on the wire *)

Section FramerWire.

(** X14: [lcd_write_cmd] transfers exactly one byte, its argument reduced
    to 8 bits, with chip-select low and the select line in the command
    state; [lcd_write_data] does the same in the data state;
    [lcd_write_data_buf] transfers, in the data state, the first
    [len mod 2^16] bytes of the buffer as one block. *)
Theorem framer_wire_view (cmd data : Z) (buf : list Z) (len : Z)
    (cs dc : option Z) (p : platform) :
  map tagged (wire cs dc (emitted (lcd_write_cmd cmd) p)) = [command_byte (cmd mod 256)] /\
  map tagged (wire cs dc (emitted (lcd_write_data data) p)) = [data_byte (data mod 256)] /\
  map tagged (wire cs dc (emitted (lcd_write_data_buf buf len) p)) =
    [(Some KData, take (Z.to_nat (len mod 65536)) buf)].
Proof.
  to_log. repeat split; reflexivity.
Qed.

End FramerWire.

Section FlushTotals.

(** X15: counted over the whole flush, the bytes clocked in the data
    state are the eight address bytes of the window plus the pixel write:
    [8 + (width * height * 2) mod 2^16], whatever the line levels before. *)
Theorem flush_data_state_bytes (drv : Z) (a : lv_area_t) (color_p : list Z)
    (cs dc : option Z) (p : platform) :
  data_bytes (wire cs dc (emitted (lcd_flush drv a color_p) p)) =
  8 + (width a * height a * 2) mod 2 ^ 16.
Proof.
  to_log. rewrite <- flush_len_mod.
  unfold flush_log, block_frame. rewrite flush_len_fix.
  cbn. lia.
Qed.

End FlushTotals.
